(** * The KerasNLP upload guide (guides/ipynb/keras_nlp/upload.ipynb)

    The notebook is a straight-line Python script: every code cell is a
    handful of calls into third-party libraries (tensorflow_datasets,
    keras_nlp, kagglehub, huggingface_hub) and the only control flow is
    the pair of [if ... not in os.environ] guards in front of the two
    interactive logins.

    The embedding below keeps that shape.  A library call is a
    constructor of [call]; the libraries themselves (and everything
    behind them: file system, network, the hubs) are a handler [lib]
    over an abstract world [W], which answers a call with a value or
    with a Python exception.  The script runs in a state-and-exception
    monad whose state carries the world, [os.environ] and the log of the
    calls made so far together with their outcomes.  Running all cells
    is one monadic program, [notebook]; it returns the kernel's global
    namespace.  An exception ends the run: the script has no [try].

    What the model fixes about the libraries, and nothing more:
    - [os.environ] is written by the script only (its one assignment to
      [KERAS_BACKEND]); library calls read it at most;
    - a [tf.data] dataset is the list of its elements, [take] and [map]
      are pure;
    - [tfds.load] with a list of splits returns a list of datasets,
      [whoami] returns a dict with string entries, [from_preset] and
      [fit] return object references.
    What the library calls do otherwise is left open: [lib] is a
    parameter of every theorem. *)

From Stdlib Require Import ZArith String List.
From stdpp Require Import base tactics option list strings gmap.

(** ** Python values the script handles *)

Module Py.

(** An exception object: its class and its message. *)
Record exn := PyErr { exc_class : string; exc_msg : string }.

(** Outcome of evaluating an expression. *)
Inductive res (A : Type) : Type :=
| Ok (a : A)
| Raise (e : exn).
Arguments Ok {A} a.
Arguments Raise {A} e.

Definition KeyError (k : string) : exn := PyErr "KeyError" k.
Definition ValueError (msg : string) : exn := PyErr "ValueError" msg.

Definition is_ok {A} (r : res A) : bool :=
  match r with Ok _ => true | Raise _ => false end.

Definition error {A} (r : res A) : option exn :=
  match r with Ok _ => None | Raise e => Some e end.

End Py.
Import Py.

(** ** tf.data datasets

    A dataset is the finite sequence of its elements.  [take] and [map]
    build new datasets and leave their argument alone. *)

Module tfdata.

Definition Dataset (A : Type) : Type := list A.

(** [ds.take(n)]: the first [n] elements, all of them when there are
    fewer. *)
Definition take {A} (n : nat) (ds : Dataset A) : Dataset A :=
  list.take n ds.

(** [ds.map(f)]. *)
Definition map {A B} (f : A → B) (ds : Dataset A) : Dataset B :=
  f <$> ds.

End tfdata.

(** One element of a batched, supervised text dataset: a batch of
    review texts and the batch of their labels
    ([as_supervised=True, batch_size=...]). *)
Definition Texts : Type := list string.
Definition Labels : Type := list Z.
Definition Supervised : Type := Texts * Labels.

(** What [Model.fit] is handed as [x]: a dataset of inputs only, or a
    dataset of (inputs, targets) pairs. *)
Inductive fit_data : Type :=
| Inputs (ds : tfdata.Dataset Texts)
| InputsTargets (ds : tfdata.Dataset Supervised).

Definition labeled (d : fit_data) : bool :=
  match d with Inputs _ => false | InputsTargets _ => true end.

(** The two model hubs. *)
Inductive Hub : Type := Kaggle | HuggingFace.

Definition scheme (h : Hub) : string :=
  match h with Kaggle => "kaggle://" | HuggingFace => "hf://" end.

Section Notebook.

(** Library objects (models, backbones, tokenizers, training
    histories) are opaque references. *)
Variable Obj : Type.

(** ** Library calls *)

Inductive call : Type :=
| import_module (name : string)
| tfds_load (name : string) (split : list string)
            (as_supervised : bool) (batch_size : nat)
| CausalLM_from_preset (preset : string)
| Backbone_from_preset (preset : string)
| Tokenizer_from_preset (preset : string)
| Classifier_from_preset (preset : string) (num_classes : nat)
| fit (model : Obj) (x : fit_data)
| save_to_preset (model : Obj) (preset_dir : string)
| os_listdir (path : string)
| kagglehub_login
| kagglehub_whoami
| huggingface_hub_notebook_login
| huggingface_hub_whoami
| upload_preset (uri : string) (preset_dir : string).

(** The type of the value a call returns. *)
Definition ret (c : call) : Type :=
  match c with
  | import_module _ => unit
  | tfds_load _ _ _ _ => list (tfdata.Dataset Supervised)
  | CausalLM_from_preset _ => Obj
  | Backbone_from_preset _ => Obj
  | Tokenizer_from_preset _ => Obj
  | Classifier_from_preset _ _ => Obj
  | fit _ _ => Obj
  | save_to_preset _ _ => unit
  | os_listdir _ => list string
  | kagglehub_login => unit
  | kagglehub_whoami => gmap string string
  | huggingface_hub_notebook_login => unit
  | huggingface_hub_whoami => gmap string string
  | upload_preset _ _ => unit
  end.

(** What the kernel did, in order: a shell escape ([!cmd], whose exit
    status IPython drops) or a library call with its outcome. *)
Inductive event : Type :=
| EvShell (cmd : string)
| EvCall (c : call) (r : res (ret c)).

Definition call_of (ev : event) : option call :=
  match ev with EvShell _ => None | EvCall c _ => Some c end.

Definition error_of (ev : event) : option exn :=
  match ev with EvShell _ => None | EvCall _ r => error r end.

Definition calls (tr : list event) : list call := omap call_of tr.

(** ** Reading a log *)

(** [each_event P past todo]: every event of [todo] satisfies [P],
    given the events that came before it. *)
Fixpoint each_event (P : list event → event → Prop)
         (past todo : list event) : Prop :=
  match todo with
  | [] => True
  | ev :: rest => P past ev ∧ each_event P (past ++ [ev]) rest
  end.

(** A library error is the end of the run and is its outcome. *)
Fixpoint propagated {A} (r : res A) (tr : list event) : Prop :=
  match tr with
  | [] => True
  | ev :: rest =>
      match error_of ev with
      | Some e => rest = [] ∧ r = Raise e
      | None => propagated r rest
      end
  end.

(** The exception an outcome carries was raised by the last call
    logged, or by the script's own subscript or unpacking. *)
Definition raised_by_script (e : exn) : Prop :=
  exc_class e = "KeyError" ∨ exc_class e = "ValueError".

Definition origin {A} (r : res A) (tr : list event) : Prop :=
  match r with
  | Ok _ => True
  | Raise e => (last tr ≫= error_of) = Some e ∨ raised_by_script e
  end.

(** What successful calls returned. *)
Definition loaded_by (ev : event) : option (list (tfdata.Dataset Supervised)) :=
  match ev with
  | EvCall (tfds_load _ _ _ _) (Ok splits) => Some splits
  | _ => None
  end.

Definition created_by (ev : event) : option (call * Obj) :=
  match ev with
  | EvCall (CausalLM_from_preset p) (Ok m) => Some (CausalLM_from_preset p, m)
  | EvCall (Backbone_from_preset p) (Ok m) => Some (Backbone_from_preset p, m)
  | EvCall (Tokenizer_from_preset p) (Ok m) => Some (Tokenizer_from_preset p, m)
  | EvCall (Classifier_from_preset p n) (Ok m) => Some (Classifier_from_preset p n, m)
  | _ => None
  end.

Definition whoami_by (h : Hub) (ev : event) : option (gmap string string) :=
  match h, ev with
  | Kaggle, EvCall kagglehub_whoami (Ok who) => Some who
  | HuggingFace, EvCall huggingface_hub_whoami (Ok who) => Some who
  | _, _ => None
  end.

(** Every split list loaded, every object created, every identity
    obtained from hub [h], in log order. *)
Definition loaded (tr : list event) := omap loaded_by tr.
Definition created (tr : list event) := omap created_by tr.
Definition whoamis (h : Hub) (tr : list event) := omap (whoami_by h) tr.

(** The arguments of the [fit] and [upload_preset] calls. *)
Definition fit_args (c : call) : option (Obj * fit_data) :=
  match c with fit m x => Some (m, x) | _ => None end.

Definition upload_args (c : call) : option (string * string) :=
  match c with upload_preset uri dir => Some (uri, dir) | _ => None end.

Definition fits (tr : list event) := omap fit_args (calls tr).
Definition uploads (tr : list event) := omap upload_args (calls tr).

(** Interactive logins. *)
Definition is_login (h : Hub) (c : call) : bool :=
  match h, c with
  | Kaggle, kagglehub_login => true
  | HuggingFace, huggingface_hub_notebook_login => true
  | _, _ => false
  end.

Definition logins (h : Hub) (tr : list event) : nat :=
  length (List.filter (is_login h) (calls tr)).

(** The calls that returned normally. *)
Definition ok_call (ev : event) : option call :=
  match error_of ev with None => call_of ev | Some _ => None end.

Definition ok_calls (tr : list event) : list call := omap ok_call tr.

Definition authenticated_hubs (tr : list event) : list Hub :=
  List.filter (λ h, 0 <? logins h tr) [Kaggle; HuggingFace].

(** Calls that talk to a hub. *)
Definition is_hub_call (c : call) : bool :=
  match c with
  | kagglehub_login | kagglehub_whoami
  | huggingface_hub_notebook_login | huggingface_hub_whoami
  | upload_preset _ _ => true
  | _ => false
  end.

Definition hub_calls (tr : list event) : list call :=
  List.filter is_hub_call (calls tr).

(** Calls that fetch or consume training data. *)
Definition is_training_call (c : call) : bool :=
  match c with
  | tfds_load _ _ _ _ | fit _ _ => true
  | _ => false
  end.

Definition training_calls (tr : list event) : list call :=
  List.filter is_training_call (calls tr).

(** ** The seven steps of the walkthrough

    load data, load model, fit, save, authenticate, upload, reload.
    A [from_preset] is a reload when its preset is a directory saved
    earlier in the run or a hub URI, and a model load otherwise. *)

Inductive Stage : Type :=
| LoadData | LoadModel | FitModel | SaveLocal | Authenticate | Upload | Reload.

Definition rank (s : Stage) : nat :=
  match s with
  | LoadData => 0 | LoadModel => 1 | FitModel => 2 | SaveLocal => 3
  | Authenticate => 4 | Upload => 5 | Reload => 6
  end.

Definition is_hub_uri (p : string) : bool :=
  String.prefix (scheme Kaggle) p || String.prefix (scheme HuggingFace) p.

Definition preset_stage (saved : list string) (p : string) : Stage :=
  if existsb (String.eqb p) saved || is_hub_uri p then Reload else LoadModel.

Definition stage_of (saved : list string) (c : call) : option Stage :=
  match c with
  | tfds_load _ _ _ _ => Some LoadData
  | CausalLM_from_preset p | Backbone_from_preset p
  | Tokenizer_from_preset p | Classifier_from_preset p _ =>
      Some (preset_stage saved p)
  | fit _ _ => Some FitModel
  | save_to_preset _ _ => Some SaveLocal
  | kagglehub_login | huggingface_hub_notebook_login => Some Authenticate
  | upload_preset _ _ => Some Upload
  | import_module _ | os_listdir _
  | kagglehub_whoami | huggingface_hub_whoami => None
  end.

Definition saved_after (saved : list string) (c : call) : list string :=
  match c with save_to_preset _ dir => dir :: saved | _ => saved end.

Fixpoint stages_from (saved : list string) (cs : list call) : list Stage :=
  match cs with
  | [] => []
  | c :: cs' =>
      from_option (λ s, [s]) [] (stage_of saved c)
      ++ stages_from (saved_after saved c) cs'
  end.

Definition stages (tr : list event) : list Stage := stages_from [] (calls tr).

Fixpoint nondecreasing (l : list nat) : bool :=
  match l with
  | a :: (b :: _) as rest => (a <=? b) && nondecreasing rest
  | _ => true
  end.

(** The run goes through the seven steps once, in order. *)
Definition in_walkthrough_order (tr : list event) : bool :=
  nondecreasing (rank <$> stages tr).

(** ** The outside world *)

Variable W : Type.
Variable lib : ∀ c : call, W → res (ret c) * W.
Variable sh : string → W → W.

(** ** Kernel state and the script monad *)

Record St : Type := mkSt {
  world : W;
  environ : gmap string string;
  log : list event
}.

Definition M (A : Type) : Type := St → res A * St.

Definition pure {A} (a : A) : M A := λ st, (Ok a, st).

Definition raise {A} (e : exn) : M A := λ st, (Raise e, st).

Definition bind {A B} (m : M A) (k : A → M B) : M B :=
  λ st, match m st with
        | (Ok a, st') => k a st'
        | (Raise e, st') => (Raise e, st')
        end.

(** A library call: ask the world, log call and outcome. *)
Definition invoke (c : call) : M (ret c) :=
  λ st, let '(r, w) := lib c (world st) in
        (r, mkSt w (environ st) (log st ++ [EvCall c r])).

(** [!cmd] *)
Definition shell (cmd : string) : M unit :=
  λ st, (Ok tt, mkSt (sh cmd (world st)) (environ st) (log st ++ [EvShell cmd])).

(** [os.environ[k] = v] *)
Definition environ_set (k v : string) : M unit :=
  λ st, (Ok tt, mkSt (world st) (<[k:=v]> (environ st)) (log st)).

(** [k not in os.environ] *)
Definition not_in_environ (k : string) : M bool :=
  λ st, (Ok (bool_decide (environ st !! k = None)), st).

(** [d[k]] on a dict *)
Definition subscript (d : gmap string string) (k : string) : M string :=
  match d !! k with
  | Some v => pure v
  | None => raise (KeyError k)
  end.

(** [a, b = xs] *)
Definition unpack2 {A} (xs : list A) : M (A * A) :=
  match xs with
  | [a; b] => pure (a, b)
  | [] | [_] => raise (ValueError "not enough values to unpack")
  | _ => raise (ValueError "too many values to unpack")
  end.

(** [wp m Q st]: running [m] from [st] ends in an outcome and a state
    that satisfy [Q]. *)
Definition wp {A} (m : M A) (Q : res A → St → Prop) (st : St) : Prop :=
  Q (m st).1 (m st).2.

Declare Scope nb_scope.
Delimit Scope nb_scope with nb.
Notation "x ← m ; k" := (bind m (λ x, k))
  (at level 20, m at level 100, k at level 200, only parsing) : nb_scope.
Notation "' x ← m ; k" := (bind m (λ x, k))
  (at level 20, x pattern, m at level 100, k at level 200, only parsing) : nb_scope.
Notation "m ;; k" := (bind m (λ _, k))
  (at level 100, k at level 200, only parsing, right associativity) : nb_scope.

(** ** The notebook *)

(** The kernel's global namespace once every cell has run (modules
    left out). *)
Record Namespace : Type := mkNamespace {
  imdb_train : tfdata.Dataset Supervised;
  imdb_test : tfdata.Dataset Supervised;
  causal_lm : Obj;
  imdb_train_reviews : tfdata.Dataset Texts;
  backbone : Obj;
  tokenizer : Obj;
  kaggle_username : string;
  kaggle_uri : string;
  hf_username : string;
  hf_uri : string;
  classifier : Obj;
  preset_dir : string
}.

(** The code cells, top to bottom.  A Python rebinding
    ([imdb_train], [causal_lm], [preset_dir]) is a shadowing binder.
    The two operands of each guard's [or] are membership tests without
    effect, so both are evaluated before the [||]. *)
Definition notebook : M Namespace :=
  (shell "pip install -q --upgrade keras-nlp huggingface-hub" ;;

   invoke (import_module "os") ;;
   environ_set "KERAS_BACKEND" "jax" ;;
   invoke (import_module "keras_nlp") ;;

   invoke (import_module "tensorflow_datasets") ;;
   splits ← invoke (tfds_load "imdb_reviews" ["train"; "test"] true 4) ;
   ' (imdb_train, imdb_test) ← unpack2 splits ;

   let imdb_train := tfdata.take 100 imdb_train in

   causal_lm ← invoke (CausalLM_from_preset "gpt2_base_en") ;

   (* Drop labels and keep the review text only for the Causal LM. *)
   let imdb_train_reviews := tfdata.map (λ '(x, y), x) imdb_train in
   (* Fine-tune the Causal LM. *)
   invoke (fit causal_lm (Inputs imdb_train_reviews)) ;;

   let preset_dir := "./gpt2_imdb" in
   invoke (save_to_preset causal_lm preset_dir) ;;

   invoke (os_listdir preset_dir) ;;

   causal_lm ← invoke (CausalLM_from_preset preset_dir) ;

   backbone ← invoke (Backbone_from_preset preset_dir) ;
   tokenizer ← invoke (Tokenizer_from_preset preset_dir) ;

   invoke (import_module "kagglehub") ;;
   no_user ← not_in_environ "KAGGLE_USERNAME" ;
   no_key ← not_in_environ "KAGGLE_KEY" ;
   (if no_user || no_key then invoke kagglehub_login else pure tt) ;;

   who ← invoke kagglehub_whoami ;
   kaggle_username ← subscript who "username" ;
   let kaggle_uri := "kaggle://" +:+ kaggle_username +:+ "/gpt2/keras/gpt2_imdb" in
   invoke (upload_preset kaggle_uri preset_dir) ;;

   invoke (import_module "huggingface_hub") ;;
   no_user ← not_in_environ "HF_USERNAME" ;
   no_token ← not_in_environ "HF_TOKEN" ;
   (if no_user || no_token then invoke huggingface_hub_notebook_login else pure tt) ;;

   who ← invoke huggingface_hub_whoami ;
   hf_username ← subscript who "name" ;
   let hf_uri := "hf://" +:+ hf_username +:+ "/gpt2_imdb" in
   invoke (upload_preset hf_uri preset_dir) ;;

   (* Load the base model. *)
   classifier ← invoke (Classifier_from_preset "bert_tiny_en_uncased" 2) ;
   (* Fine-tune the classifier. *)
   invoke (fit classifier (InputsTargets imdb_train)) ;;
   (* Save the model to a local preset directory. *)
   let preset_dir := "./bert_tiny_imdb" in
   invoke (save_to_preset classifier preset_dir) ;;
   (* Upload to Kaggle. *)
   invoke (upload_preset
             ("kaggle://" +:+ kaggle_username +:+ "/bert/keras/bert_tiny_imdb")
             preset_dir) ;;

   pure (mkNamespace imdb_train imdb_test causal_lm imdb_train_reviews
           backbone tokenizer kaggle_username kaggle_uri
           hf_username hf_uri classifier preset_dir))%nb.

(** A fresh kernel: nothing logged yet. *)
Definition fresh (env : gmap string string) (w : W) : St := mkSt w env [].

(** "Run all" on a fresh kernel. *)
Definition run_all (env : gmap string string) (w : W) : res Namespace * St :=
  notebook (fresh env w).

End Notebook.

Arguments EvShell {Obj} cmd.
Arguments EvCall {Obj} c r.
Arguments call_of {Obj} ev.
Arguments error_of {Obj} ev.
Arguments calls {Obj} tr.
Arguments each_event {Obj} P past todo.
Arguments propagated {Obj A} r tr.
Arguments origin {Obj A} r tr.
Arguments is_login {Obj} h c.
Arguments logins {Obj} h tr.
Arguments loaded_by {Obj} ev.
Arguments created_by {Obj} ev.
Arguments whoami_by {Obj} h ev.
Arguments loaded {Obj} tr.
Arguments created {Obj} tr.
Arguments whoamis {Obj} h tr.
Arguments fit_args {Obj} c.
Arguments upload_args {Obj} c.
Arguments fits {Obj} tr.
Arguments uploads {Obj} tr.
Arguments authenticated_hubs {Obj} tr.
Arguments ok_call {Obj} ev.
Arguments ok_calls {Obj} tr.
Arguments is_hub_call {Obj} c.
Arguments hub_calls {Obj} tr.
Arguments is_training_call {Obj} c.
Arguments training_calls {Obj} tr.
Arguments stage_of {Obj} saved c.
Arguments saved_after {Obj} saved c.
Arguments stages_from {Obj} saved cs.
Arguments stages {Obj} tr.
Arguments in_walkthrough_order {Obj} tr.
Arguments imdb_train {Obj} n.
Arguments imdb_test {Obj} n.
Arguments causal_lm {Obj} n.
Arguments imdb_train_reviews {Obj} n.
Arguments backbone {Obj} n.
Arguments tokenizer {Obj} n.
Arguments kaggle_username {Obj} n.
Arguments kaggle_uri {Obj} n.
Arguments hf_username {Obj} n.
Arguments hf_uri {Obj} n.
Arguments classifier {Obj} n.
Arguments preset_dir {Obj} n.
Arguments world {Obj W} s.
Arguments environ {Obj W} s.
Arguments log {Obj W} s.
Arguments mkSt {Obj W} world environ log.
Arguments pure {Obj W A} a st.
Arguments raise {Obj W A} e st.
Arguments bind {Obj W A B} m k st.
Arguments invoke {Obj W} lib c st.
Arguments shell {Obj W} sh cmd st.
Arguments environ_set {Obj W} k v st.
Arguments not_in_environ {Obj W} k st.
Arguments subscript {Obj W} d k.
Arguments unpack2 {Obj W A} xs.
Arguments wp {Obj W A} m Q st.
Arguments notebook {Obj W} lib sh.
Arguments fresh {Obj W} env w.
Arguments run_all {Obj W} lib sh env w.
Arguments import_module {Obj} name.
Arguments tfds_load {Obj} name split as_supervised batch_size.
Arguments CausalLM_from_preset {Obj} preset.
Arguments Backbone_from_preset {Obj} preset.
Arguments Tokenizer_from_preset {Obj} preset.
Arguments Classifier_from_preset {Obj} preset num_classes.
Arguments fit {Obj} model x.
Arguments save_to_preset {Obj} model preset_dir.
Arguments os_listdir {Obj} path.
Arguments kagglehub_login {Obj}.
Arguments kagglehub_whoami {Obj}.
Arguments huggingface_hub_notebook_login {Obj}.
Arguments huggingface_hub_whoami {Obj}.
Arguments upload_preset {Obj} uri preset_dir.

(** ** A concrete world

    Objects are numbered in creation order, every call succeeds, the
    training split has 120 batches and the test split 3, and the two
    hubs know the user as "ada" and "lovelace". *)

Module World0.

Definition train : tfdata.Dataset Supervised :=
  replicate 120 (["good"; "bad"; "fine"; "dull"], [1%Z; 0%Z; 1%Z; 0%Z]).

Definition test : tfdata.Dataset Supervised :=
  replicate 3 (["so-so"; "great"; "poor"; "nice"], [0%Z; 1%Z; 0%Z; 1%Z]).

Definition lib (c : call nat) (w : nat) : res (ret nat c) * nat :=
  match c as c0 return res (ret nat c0) * nat with
  | import_module _ => (Ok tt, w)
  | tfds_load _ _ _ _ => (Ok [train; test], w)
  | CausalLM_from_preset _ => (Ok w, S w)
  | Backbone_from_preset _ => (Ok w, S w)
  | Tokenizer_from_preset _ => (Ok w, S w)
  | Classifier_from_preset _ _ => (Ok w, S w)
  | fit _ _ => (Ok w, S w)
  | save_to_preset _ _ => (Ok tt, w)
  | os_listdir _ => (Ok ["config.json"; "model.weights.h5"], w)
  | kagglehub_login => (Ok tt, w)
  | kagglehub_whoami => (Ok {[ "username" := "ada" ]}, w)
  | huggingface_hub_notebook_login => (Ok tt, w)
  | huggingface_hub_whoami => (Ok {[ "name" := "lovelace" ]}, w)
  | upload_preset _ _ => (Ok tt, w)
  end.

Definition sh (cmd : string) (w : nat) : nat := w.

(** Both hubs' credentials in the environment. *)
Definition env_all : gmap string string :=
  <["KAGGLE_USERNAME":="ada"]> (<["KAGGLE_KEY":="k"]>
    (<["HF_USERNAME":="lovelace"]> (<["HF_TOKEN":="t"]> ∅))).

Definition run (env : gmap string string) : res (Namespace nat) * St nat nat :=
  run_all lib sh env 0.

(** The namespace the run ends with. *)
Definition ns : Namespace nat :=
  {| imdb_train := tfdata.take 100 train;
     imdb_test := test;
     causal_lm := 2;
     imdb_train_reviews := tfdata.map fst (tfdata.take 100 train);
     backbone := 3;
     tokenizer := 4;
     kaggle_username := "ada";
     kaggle_uri := "kaggle://ada/gpt2/keras/gpt2_imdb";
     hf_username := "lovelace";
     hf_uri := "hf://lovelace/gpt2_imdb";
     classifier := 5;
     preset_dir := "./bert_tiny_imdb" |}.

End World0.


(** ** A world where Hugging Face turns the upload down

    As [World0], except that an upload to an [hf://] URI raises. *)

Module World1.

Definition denied : exn := PyErr "HfHubHTTPError" "401 Client Error: Unauthorized".

Definition lib (c : call nat) (w : nat) : res (ret nat c) * nat :=
  match c as c0 return res (ret nat c0) * nat with
  | upload_preset uri _ =>
      if String.prefix (scheme HuggingFace) uri then (Raise denied, w) else (Ok tt, w)
  | c0 => World0.lib c0 w
  end.

Definition run (env : gmap string string) : res (Namespace nat) * St nat nat :=
  run_all lib World0.sh env 0.

End World1.

(** The variables that hold a hub's credentials, and whether the
    environment lacks one of them. *)
Definition credentials (h : Hub) : string * string :=
  match h with
  | Kaggle => ("KAGGLE_USERNAME", "KAGGLE_KEY")
  | HuggingFace => ("HF_USERNAME", "HF_TOKEN")
  end.

Definition creds_incomplete (h : Hub) (env : gmap string string) : bool :=
  bool_decide (env !! (credentials h).1 = None)
  || bool_decide (env !! (credentials h).2 = None).

(** A URI is addressed to hub [h]: it starts with the scheme of [h]
    and with the scheme of no other hub. *)
Definition addressed_to (h : Hub) (uri : string) : Prop :=
  ∀ h', String.prefix (scheme h') uri = true ↔ h' = h.

(** Both fit calls are handed the labeled sample itself: the first 100
    batches of the training split, labels included. *)
Definition fits_on_labeled_sample {Obj} (train : tfdata.Dataset Supervised)
    (tr : list (event Obj)) : Prop :=
  Forall (λ mx, mx.2 = InputsTargets (tfdata.take 100 train)) (fits tr).

(** The run logs in to exactly one of the two hubs. *)
Definition authenticates_one_hub {Obj} (tr : list (event Obj)) : Prop :=
  length (authenticated_hubs tr) = 1.

Definition auth_if_needed (h : Hub) (env : gmap string string) : list Stage :=
  if creds_incomplete h env then [Authenticate] else [].

Definition username_key (h : Hub) : string :=
  match h with Kaggle => "username" | HuggingFace => "name" end.

Definition login {Obj} (h : Hub) : call Obj :=
  match h with
  | Kaggle => kagglehub_login
  | HuggingFace => huggingface_hub_notebook_login
  end.

(** An upload is in order, given what happened before it ([past]):
    its URI is the hub's scheme, then the user name that hub's [whoami]
    returned, then a path; and its directory was saved from a model
    that had been fitted. *)
Definition upload_justified {Obj} (past : list (event Obj)) (ev : event Obj) : Prop :=
  ∀ uri dir, call_of ev = Some (upload_preset uri dir) →
    (∃ h who user path,
        who ∈ whoamis h past
        ∧ who !! username_key h = Some user
        ∧ uri = scheme h +:+ user +:+ "/" +:+ path)
    ∧ (∃ model x,
        [fit model x; save_to_preset model dir] `sublist_of` ok_calls past).

(** The interactive login of hub [h], made only when the environment
    lacks one of its credentials. *)
Definition login_if_needed {Obj} (h : Hub) (env : gmap string string)
  : list (call Obj) :=
  if creds_incomplete h env then [login h] else [].

(** The calls of a run that gets through every cell, in terms of the
    environment it starts in, the namespace it ends with and the base
    model [gpt2] that [causal_lm] named before it was rebound. *)
Definition script_calls {Obj} (env : gmap string string) (gpt2 : Obj)
    (ns : Namespace Obj) : list (call Obj) :=
  [ import_module "os";
    import_module "keras_nlp";
    import_module "tensorflow_datasets";
    tfds_load "imdb_reviews" ["train"; "test"] true 4;
    CausalLM_from_preset "gpt2_base_en";
    fit gpt2 (Inputs (imdb_train_reviews ns));
    save_to_preset gpt2 "./gpt2_imdb";
    os_listdir "./gpt2_imdb";
    CausalLM_from_preset "./gpt2_imdb";
    Backbone_from_preset "./gpt2_imdb";
    Tokenizer_from_preset "./gpt2_imdb";
    import_module "kagglehub" ]
  ++ login_if_needed Kaggle env
  ++ [ kagglehub_whoami;
       upload_preset (kaggle_uri ns) "./gpt2_imdb";
       import_module "huggingface_hub" ]
  ++ login_if_needed HuggingFace env
  ++ [ huggingface_hub_whoami;
       upload_preset (hf_uri ns) "./gpt2_imdb";
       Classifier_from_preset "bert_tiny_en_uncased" 2;
       fit (classifier ns) (InputsTargets (imdb_train ns));
       save_to_preset (classifier ns) "./bert_tiny_imdb";
       upload_preset
         ("kaggle://" +:+ kaggle_username ns +:+ "/bert/keras/bert_tiny_imdb")
         (preset_dir ns) ].

(** What a log and a final namespace look like when every cell ran. *)
Record ran_all_cells {Obj} (env : gmap string string) (gpt2 : Obj)
    (train : tfdata.Dataset Supervised) (ns : Namespace Obj)
    (tr : list (event Obj)) : Prop := {
  ran_calls : calls tr = script_calls env gpt2 ns;
  ran_ok : Forall (λ ev, error_of ev = None) tr;
  ran_loaded : loaded tr = [[train; imdb_test ns]];
  ran_created :
    created tr =
      [ (CausalLM_from_preset "gpt2_base_en", gpt2);
        (CausalLM_from_preset "./gpt2_imdb", causal_lm ns);
        (Backbone_from_preset "./gpt2_imdb", backbone ns);
        (Tokenizer_from_preset "./gpt2_imdb", tokenizer ns);
        (Classifier_from_preset "bert_tiny_en_uncased" 2, classifier ns) ];
  ran_kaggle_user :
    (λ who, who !! "username") <$> whoamis Kaggle tr = [Some (kaggle_username ns)];
  ran_hf_user :
    (λ who, who !! "name") <$> whoamis HuggingFace tr = [Some (hf_username ns)];
  ran_train : imdb_train ns = tfdata.take 100 train;
  ran_reviews : imdb_train_reviews ns = tfdata.map (λ '(x, _), x) (imdb_train ns);
  ran_kaggle_uri :
    kaggle_uri ns = "kaggle://" +:+ kaggle_username ns +:+ "/gpt2/keras/gpt2_imdb";
  ran_hf_uri : hf_uri ns = "hf://" +:+ hf_username ns +:+ "/gpt2_imdb";
  ran_preset_dir : preset_dir ns = "./bert_tiny_imdb"
}.

(** ** More to read from a log *)

Definition whoami_call {Obj} (h : Hub) : call Obj :=
  match h with
  | Kaggle => kagglehub_whoami
  | HuggingFace => huggingface_hub_whoami
  end.

(** The exceptions the script's own expressions can raise: the two
    dict subscripts, right after the [whoami] they index, and the
    unpacking of the splits, right after [tfds.load]. *)
Definition raised_after {Obj} (tr : list (event Obj)) (e : exn) : Prop :=
  (∃ h, e = KeyError (username_key h) ∧ last (calls tr) = Some (whoami_call h))
  ∨ (exc_class e = "ValueError"
     ∧ last (calls tr) = Some (tfds_load "imdb_reviews" ["train"; "test"] true 4)).

(** The preset a [from_preset] call names. *)
Definition preset_of {Obj} (c : call Obj) : option string :=
  match c with
  | CausalLM_from_preset p | Backbone_from_preset p
  | Tokenizer_from_preset p | Classifier_from_preset p _ => Some p
  | _ => None
  end.

(** The presets the script asks the library for by name. *)
Definition named_presets : list string := ["gpt2_base_en"; "bert_tiny_en_uncased"].

(** A [from_preset] is in order, given what happened before it: it
    names no hub URI, and what it names is one of the library's presets
    or a directory saved earlier from a fitted model. *)
Definition preset_justified {Obj} (past : list (event Obj)) (ev : event Obj) : Prop :=
  ∀ c p, call_of ev = Some c → preset_of c = Some p →
    is_hub_uri p = false
    ∧ (p ∈ named_presets
       ∨ ∃ model x,
           [fit model x; save_to_preset model p] `sublist_of` ok_calls past).

(** Number of batches a fit call is handed. *)
Definition fit_batches (d : fit_data) : nat :=
  match d with Inputs ds => length ds | InputsTargets ds => length ds end.

(** A [fit] is in order, given what happened before it: its data is
    the head of the training split loaded earlier, at most 100 batches,
    with or without the labels. *)
Definition fit_justified {Obj} (past : list (event Obj)) (ev : event Obj) : Prop :=
  ∀ model x, call_of ev = Some (fit model x) →
    ∃ train test,
      loaded past = [[train; test]]
      ∧ (x = Inputs (tfdata.map fst (tfdata.take 100 train))
         ∨ x = InputsTargets (tfdata.take 100 train))
      ∧ fit_batches x ≤ 100.

(** The steps of a run that gets through every cell. *)
Definition run_stages (env : gmap string string) : list Stage :=
  [LoadData; LoadModel; FitModel; SaveLocal; Reload; Reload; Reload]
  ++ auth_if_needed Kaggle env ++ [Upload]
  ++ auth_if_needed HuggingFace env
  ++ [Upload; LoadModel; FitModel; SaveLocal; Upload].

(** ** A world where Kaggle's [whoami] has no "username"

    As [World0], except for the dict [kagglehub.whoami] returns. *)

Module World2.

Definition who : gmap string string := {[ "user" := "ada" ]}.

Definition lib (c : call nat) (w : nat) : res (ret nat c) * nat :=
  match c as c0 return res (ret nat c0) * nat with
  | kagglehub_whoami => (Ok who, w)
  | c0 => World0.lib c0 w
  end.

Definition run (env : gmap string string) : res (Namespace nat) * St nat nat :=
  run_all lib World0.sh env 0.

End World2.

(** ** Reasoning rules for the script monad *)

Section Rules.

Context {Obj W : Type}.
Variable lib : ∀ c : call Obj, W → res (ret Obj c) * W.
Variable sh : string → W → W.

Implicit Types st : St Obj W.

Lemma wp_pure {A} (a : A) (Q : res A → St Obj W → Prop) st :
  Q (Ok a) st → wp (pure a) Q st.
Proof. done. Qed.

Lemma wp_raise {A} e (Q : res A → St Obj W → Prop) st :
  Q (Raise e) st → wp (raise e) Q st.
Proof. done. Qed.

Lemma wp_bind {A B} (m : M Obj W A) (k : A → M Obj W B) Q st :
  wp m (λ r st', match r with
                 | Ok a => wp (k a) Q st'
                 | Raise e => Q (Raise e) st'
                 end) st →
  wp (bind m k) Q st.
Proof.
  unfold wp, bind. destruct (m st) as [[a|e] st']; cbn; auto.
Qed.

Lemma wp_invoke c (Q : res (ret Obj c) → St Obj W → Prop) st :
  (∀ r w, Q r (mkSt w (environ st) (log st ++ [EvCall c r]))) →
  wp (invoke lib c) Q st.
Proof.
  intros HQ. unfold wp, invoke.
  destruct (lib c (world st)) as [r w]. apply HQ.
Qed.

Lemma wp_shell cmd (Q : res unit → St Obj W → Prop) st :
  Q (Ok tt) (mkSt (sh cmd (world st)) (environ st)
               (log st ++ [EvShell cmd])) →
  wp (shell sh cmd) Q st.
Proof. done. Qed.

Lemma wp_environ_set k v (Q : res unit → St Obj W → Prop) st :
  Q (Ok tt) (mkSt (world st) (<[k:=v]> (environ st)) (log st)) →
  wp (environ_set k v) Q st.
Proof. done. Qed.

Lemma wp_not_in_environ k (Q : res bool → St Obj W → Prop) st :
  Q (Ok (bool_decide (environ st !! k = None))) st →
  wp (not_in_environ k) Q st.
Proof. done. Qed.

Lemma wp_subscript d k (Q : res string → St Obj W → Prop) st :
  (∀ v, d !! k = Some v → Q (Ok v) st) →
  (d !! k = None → Q (Raise (KeyError k)) st) →
  wp (subscript d k) Q st.
Proof.
  intros HS HN. unfold subscript. destruct (d !! k); [by apply HS|by apply HN].
Qed.

Lemma wp_unpack2 {A} (xs : list A) (Q : res (A * A) → St Obj W → Prop) st :
  (∀ a b, xs = [a; b] → Q (Ok (a, b)) st) →
  (∀ e, length xs ≠ 2 → exc_class e = "ValueError" → Q (Raise e) st) →
  wp (unpack2 xs) Q st.
Proof.
  intros H2 HE. destruct xs as [|a [|b [|c xs]]]; cbn.
  - by apply HE.
  - by apply HE.
  - by apply H2.
  - by apply HE.
Qed.

(** Whatever holds of every way the cells can go holds of the run. *)
Lemma wp_run_all (Q : res (Namespace Obj) → St Obj W → Prop) env w :
  wp (notebook lib sh) Q (fresh env w) →
  Q (run_all lib sh env w).1 (run_all lib sh env w).2.
Proof. done. Qed.

End Rules.

(** A string starts with what it was built from. *)
Lemma prefix_append (p s : string) : String.prefix p (p +:+ s) = true.
Proof.
  induction p as [|a p IH].
  - by destruct s.
  - change (String a p +:+ s) with (String a (p +:+ s)). cbn.
    destruct (Ascii.ascii_dec a a); [exact IH|congruence].
Qed.

#[local] Arguments tfdata.take : simpl never.
#[local] Arguments tfdata.map : simpl never.

(** One step through the script. *)
Ltac nb_simpl := cbn [world environ log app].

Ltac nb_guard :=
  rewrite ?lookup_insert_ne by done;
  lazymatch goal with
  | |- context [bool_decide (?env !! "KAGGLE_USERNAME" = None)
                || bool_decide (?env !! "KAGGLE_KEY" = None)] =>
      change (bool_decide (env !! "KAGGLE_USERNAME" = None)
              || bool_decide (env !! "KAGGLE_KEY" = None))
        with (creds_incomplete Kaggle env);
      destruct (creds_incomplete Kaggle env) eqn:?
  | |- context [bool_decide (?env !! "HF_USERNAME" = None)
                || bool_decide (?env !! "HF_TOKEN" = None)] =>
      change (bool_decide (env !! "HF_USERNAME" = None)
              || bool_decide (env !! "HF_TOKEN" = None))
        with (creds_incomplete HuggingFace env);
      destruct (creds_incomplete HuggingFace env) eqn:?
  end.

Ltac nb_step :=
  lazymatch goal with
  | |- wp (bind _ _) _ _ => apply wp_bind
  | |- wp (invoke _ _) _ _ => apply wp_invoke; intros [?|?] ?
  | |- wp (shell _ _) _ _ => apply wp_shell
  | |- wp (environ_set _ _) _ _ => apply wp_environ_set
  | |- wp (not_in_environ _) _ _ => apply wp_not_in_environ
  | |- wp (subscript _ _) _ _ => apply wp_subscript; [intros ? ?|intros ?]
  | |- wp (unpack2 _) _ _ => apply wp_unpack2; [intros ? ? ->|intros ? ? ?]
  | |- wp (pure _) _ _ => apply wp_pure
  | |- wp (if _ then _ else _) _ _ => nb_guard
  end; nb_simpl.

Ltac nb_run := unfold notebook, fresh; repeat nb_step.

(** Use what the steps learnt: dictionary entries, guard values. *)
Ltac nb_known :=
  repeat match goal with
         | H : _ !! _ = _ |- _ => rewrite H
         | H : creds_incomplete _ _ = _ |- _ => rewrite H
         end.

(** Find a short list inside an explicit one. *)
Ltac find_sublist :=
  solve [ apply sublist_nil_l
        | apply sublist_skip; find_sublist
        | apply sublist_cons; find_sublist ].

Ltac account_ok :=
  eexists _, _, _; split; [cbn; by constructor|];
  split; [cbn; eassumption|reflexivity].

(** An event of an explicit log is no upload, or is an upload whose
    URI and directory the events before it account for. *)
Ltac upload_ok :=
  let Hc := fresh "Hc" in
  intros ? ? Hc; cbn in Hc;
  first
    [ discriminate Hc
    | injection Hc as <- <-; split;
      [ first [ exists Kaggle; account_ok | exists HuggingFace; account_ok ]
      | eexists _, _; cbn; find_sublist ] ].

Section Claims.

Context {Obj W : Type}.
Variable lib : ∀ c : call Obj, W → res (ret Obj c) * W.
Variable sh : string → W → W.

(** *** Runs that get through every cell *)

Lemma run_all_complete env w ns st :
  run_all lib sh env w = (Ok ns, st) →
  ∃ gpt2 train, ran_all_cells env gpt2 train ns (log st).
Proof.
  intros Hrun.
  cut (∀ ns', (run_all lib sh env w).1 = Ok ns' →
         ∃ gpt2 train, ran_all_cells env gpt2 train ns' (log (run_all lib sh env w).2)).
  { rewrite Hrun. intros H. by apply H. }
  apply (wp_run_all lib sh
           (λ r st, ∀ ns', r = Ok ns' →
              ∃ gpt2 train, ran_all_cells env gpt2 train ns' (log st))).
  nb_run.
  all: intros ns' [= <-].
  all: eexists _, _; split; cbn.
  all: unfold script_calls, login_if_needed; nb_known; cbn.
  all: try reflexivity.
  all: repeat constructor.
Qed.
(** *** Errors *)

Lemma propagated_lookup {A} (r : res A) (tr : list (event Obj)) :
  propagated r tr →
  ∀ i ev e, tr !! i = Some ev → error_of ev = Some e →
            r = Raise e ∧ S i = length tr.
Proof.
  induction tr as [|ev0 tr IH]; intros Hp [|i] ev e Hl He; cbn in *; try done.
  - injection Hl as ->. rewrite He in Hp. by destruct Hp as [-> ->].
  - destruct (error_of ev0) eqn:E0.
    + destruct Hp as [-> _]. done.
    + destruct (IH Hp i ev e Hl He) as [-> <-]. done.
Qed.

Lemma run_all_propagated env w :
  propagated (run_all lib sh env w).1 (log (run_all lib sh env w).2).
Proof.
  apply (wp_run_all lib sh (λ r st, propagated r (log st))).
  nb_run. all: cbn; auto.
Qed.

(** An exception that ends the run is the one the last call raised,
    unless the script's own subscript or unpacking raised it. *)
Lemma run_all_origin env w :
  origin (run_all lib sh env w).1 (log (run_all lib sh env w).2).
Proof.
  apply (wp_run_all lib sh (λ r st, origin r (log st))).
  nb_run. all: cbn; unfold raised_by_script; auto.
Qed.

(** C7. The script handles no error itself: when a library call
    raises, that exception, unchanged, is the outcome of the run, and
    the failed call is the last thing the run did (nothing is caught,
    retried or run instead). *)
Theorem errors_propagate_unchanged env w i c e :
  log (run_all lib sh env w).2 !! i = Some (EvCall c (Raise e)) →
  (run_all lib sh env w).1 = Raise e
  ∧ S i = length (log (run_all lib sh env w).2).
Proof.
  intros Hi. eapply propagated_lookup; [apply run_all_propagated|exact Hi|done].
Qed.

(** *** Interactive logins *)

(** C3. For each hub, the interactive login is called exactly when
    the environment lacks one of the hub's two credential variables:
    never when both are set, and once, in a run that gets through
    every cell, when one is missing. *)
Theorem login_iff_credentials_incomplete env w h :
  (creds_incomplete h env = false →
     logins h (log (run_all lib sh env w).2) = 0)
  ∧ (is_ok (run_all lib sh env w).1 = true →
     logins h (log (run_all lib sh env w).2)
     = if creds_incomplete h env then 1 else 0).
Proof.
  apply (wp_run_all lib sh
           (λ r st, (creds_incomplete h env = false → logins h (log st) = 0)
                    ∧ (is_ok r = true →
                       logins h (log st) = if creds_incomplete h env then 1 else 0))).
  destruct h; nb_run.
  all: cbn; split; intros; nb_known; congruence.
Qed.

(** *** Uploads *)

Lemma each_event_lookup (P : list (event Obj) → event Obj → Prop) past tr :
  each_event P past tr →
  ∀ i ev, tr !! i = Some ev → P (past ++ take i tr) ev.
Proof.
  revert past. induction tr as [|ev0 tr IH]; intros past Hall [|i] ev Hi;
    cbn in *; try done.
  - injection Hi as ->. rewrite app_nil_r. tauto.
  - destruct Hall as [_ Hall]. specialize (IH _ Hall i ev Hi).
    by rewrite <- app_assoc in IH.
Qed.

Lemma run_all_uploads_justified env w :
  each_event upload_justified [] (log (run_all lib sh env w).2).
Proof.
  apply (wp_run_all lib sh (λ r st, each_event upload_justified [] (log st))).
  nb_run.
  all: (cbn [each_event app];
    repeat lazymatch goal with |- _ ∧ _ => split end;
    first [exact I | upload_ok]).
Qed.

(** C5. Every upload is addressed to the authenticated user and
    ships a saved, fine-tuned model: whenever event [i] of a run is
    [upload_preset uri dir], the URI is the scheme of a hub [h],
    followed by the user name that the [whoami] of that same hub
    returned earlier in the run, followed by a path; and [dir] is a
    directory that an earlier, successful [save_to_preset] wrote from
    a model on which [fit] had returned before. *)
Theorem upload_destination_and_directory env w i ev uri dir :
  log (run_all lib sh env w).2 !! i = Some ev →
  call_of ev = Some (upload_preset uri dir) →
  (∃ h who user path,
      who ∈ whoamis h (take i (log (run_all lib sh env w).2))
      ∧ who !! username_key h = Some user
      ∧ uri = scheme h +:+ user +:+ "/" +:+ path)
  ∧ (∃ model x,
      [fit model x; save_to_preset model dir]
        `sublist_of` ok_calls (take i (log (run_all lib sh env w).2))).
Proof.
  intros Hi Hc.
  exact (each_event_lookup _ [] _ (run_all_uploads_justified env w) i ev Hi uri dir Hc).
Qed.

(** *** The order of the cells *)

Lemma stages_script_calls env gpt2 (ns : Namespace Obj) :
  stages_from [] (script_calls env gpt2 ns)
  = [LoadData; LoadModel; FitModel; SaveLocal; Reload; Reload; Reload]
    ++ auth_if_needed Kaggle env ++ [Upload]
    ++ auth_if_needed HuggingFace env
    ++ [Upload; LoadModel; FitModel; SaveLocal; Upload].
Proof.
  unfold script_calls, login_if_needed, auth_if_needed.
  by destruct (creds_incomplete Kaggle env), (creds_incomplete HuggingFace env).
Qed.

(** C1, amended. A run that gets through every cell makes its calls
    in one fixed order, which is not a single pass through the seven
    steps: data load, model load, fit, save, then the reload of task,
    backbone and tokenizer from the saved directory, then for Kaggle
    and after it for Hugging Face the login (only when needed) and the
    upload, then a second round for the classifier: load, fit, save,
    upload.  The reload sits between save and upload, and nothing is
    reloaded after the uploads. *)
Theorem walkthrough_order env w ns st :
  run_all lib sh env w = (Ok ns, st) →
  (∃ gpt2, calls (log st) = script_calls env gpt2 ns)
  ∧ stages (log st)
    = [LoadData; LoadModel; FitModel; SaveLocal; Reload; Reload; Reload]
      ++ auth_if_needed Kaggle env ++ [Upload]
      ++ auth_if_needed HuggingFace env
      ++ [Upload; LoadModel; FitModel; SaveLocal; Upload]
  ∧ in_walkthrough_order (log st) = false.
Proof.
  intros Hrun. destruct (run_all_complete _ _ _ _ Hrun) as (gpt2 & train & Hran).
  split; [exists gpt2; apply Hran|].
  unfold in_walkthrough_order, stages.
  rewrite (ran_calls _ _ _ _ _ Hran), stages_script_calls.
  split; [done|]. unfold auth_if_needed.
  by destruct (creds_incomplete Kaggle env), (creds_incomplete HuggingFace env).
Qed.

(** *** Training data *)

(** C2, amended. Both fit calls are fed from one small sample of the
    labeled training split: the only data loaded is
    [tfds.load("imdb_reviews", split=["train", "test"],
    as_supervised=True, batch_size=4)], before either fit; the
    training split is cut to its first 100 batches (all of them when
    it has fewer); the classifier is fitted on that labeled sample and
    the causal LM on the same sample with the labels dropped; and
    [imdb_test] is still the test split as loaded. *)
Theorem fit_data_from_truncated_sample env w ns st :
  run_all lib sh env w = (Ok ns, st) →
  ∃ gpt2 train,
    loaded (log st) = [[train; imdb_test ns]]
    ∧ training_calls (log st)
      = [ tfds_load "imdb_reviews" ["train"; "test"] true 4;
          fit gpt2 (Inputs (tfdata.map fst (tfdata.take 100 train)));
          fit (classifier ns) (InputsTargets (tfdata.take 100 train)) ]
    ∧ imdb_train ns = tfdata.take 100 train
    ∧ length (imdb_train ns) = 100 `min` length train.
Proof.
  intros Hrun. destruct (run_all_complete _ _ _ _ Hrun) as (gpt2 & train & Hran).
  exists gpt2, train. destruct Hran as [Hc _ Hl _ _ _ Ht Hr _ _ _].
  split; [done|]. split; [|split; [done|]].
  - unfold training_calls. rewrite Hc.
    unfold script_calls, login_if_needed. rewrite Hr, Ht.
    by destruct (creds_incomplete Kaggle env), (creds_incomplete HuggingFace env).
  - rewrite Ht. apply length_take.
Qed.

(** C10. The two fine-tuning paths are fed differently shaped data:
    the model made by [CausalLM.from_preset("gpt2_base_en")] is fitted
    on the texts alone, each batch of the truncated training set
    mapped to its first component, and the classifier on the
    (texts, labels) pairs of the same truncated training set. *)
Theorem fit_inputs_texts_vs_pairs env w ns st :
  run_all lib sh env w = (Ok ns, st) →
  ∃ gpt2 train test,
    loaded (log st) = [[train; test]]
    ∧ created (log st) !! 0 = Some (CausalLM_from_preset "gpt2_base_en", gpt2)
    ∧ created (log st) !! 4
      = Some (Classifier_from_preset "bert_tiny_en_uncased" 2, classifier ns)
    ∧ fits (log st)
      = [ (gpt2, Inputs (fst <$> tfdata.take 100 train));
          (classifier ns, InputsTargets (tfdata.take 100 train)) ].
Proof.
  intros Hrun. destruct (run_all_complete _ _ _ _ Hrun) as (gpt2 & train & Hran).
  exists gpt2, train, (imdb_test ns).
  destruct Hran as [Hc _ Hl Hcr _ _ Ht Hr _ _ _].
  split; [done|]. rewrite Hcr. split; [done|]. split; [done|].
  unfold fits. rewrite Hc.
  unfold script_calls, login_if_needed. rewrite Hr, Ht.
  by destruct (creds_incomplete Kaggle env), (creds_incomplete HuggingFace env).
Qed.

(** *** Hubs *)

Lemma addressed_to_scheme h user path :
  addressed_to h (scheme h +:+ user +:+ path).
Proof.
  intros h'. destruct h, h'; split; intros H;
    try reflexivity; try discriminate H; try apply prefix_append;
    vm_compute in H; discriminate H.
Qed.

(** C4. Each hub has its own URI scheme and every upload goes to the
    hub of the account it names: in a run that gets through every
    cell the three uploads are given, in order, [kaggle://] followed
    by the Kaggle user name and a path, [hf://] followed by the
    Hugging Face user name and a path, and [kaggle://] followed by the
    Kaggle user name and a path; none of these URIs starts with the
    other hub's scheme. *)
Theorem upload_uri_schemes env w ns st :
  run_all lib sh env w = (Ok ns, st) →
  (λ who, who !! "username") <$> whoamis Kaggle (log st)
    = [Some (kaggle_username ns)]
  ∧ (λ who, who !! "name") <$> whoamis HuggingFace (log st)
    = [Some (hf_username ns)]
  ∧ (uploads (log st)).*1
    = [ scheme Kaggle +:+ kaggle_username ns +:+ "/gpt2/keras/gpt2_imdb";
        scheme HuggingFace +:+ hf_username ns +:+ "/gpt2_imdb";
        scheme Kaggle +:+ kaggle_username ns +:+ "/bert/keras/bert_tiny_imdb" ]
  ∧ Forall2 addressed_to [Kaggle; HuggingFace; Kaggle] (uploads (log st)).*1.
Proof.
  intros Hrun. destruct (run_all_complete _ _ _ _ Hrun) as (gpt2 & train & Hran).
  destruct Hran as [Hc _ _ _ Hk Hh _ _ Hku Hhu _].
  assert ((uploads (log st)).*1
          = [ scheme Kaggle +:+ kaggle_username ns +:+ "/gpt2/keras/gpt2_imdb";
              scheme HuggingFace +:+ hf_username ns +:+ "/gpt2_imdb";
              scheme Kaggle +:+ kaggle_username ns +:+ "/bert/keras/bert_tiny_imdb" ])
    as Hup.
  { unfold uploads. rewrite Hc. unfold script_calls, login_if_needed.
    rewrite Hku, Hhu.
    by destruct (creds_incomplete Kaggle env), (creds_incomplete HuggingFace env). }
  repeat split; try done. rewrite Hup.
  repeat constructor; apply addressed_to_scheme.
Qed.

(** C6, amended. One run deals with both hubs, one after the other:
    the Kaggle login (made only when its credentials are incomplete)
    and [whoami] come before the first upload, which goes to Kaggle;
    the Hugging Face login (likewise) and [whoami] come after it and
    before the upload to Hugging Face; the classifier is then uploaded
    to Kaggle.  The hubs the run logs in to are those whose
    credentials are incomplete: none, one or both. *)
Theorem both_hubs_in_turn env w ns st :
  run_all lib sh env w = (Ok ns, st) →
  hub_calls (log st)
  = login_if_needed Kaggle env
    ++ [kagglehub_whoami; upload_preset (kaggle_uri ns) "./gpt2_imdb"]
    ++ login_if_needed HuggingFace env
    ++ [ huggingface_hub_whoami;
         upload_preset (hf_uri ns) "./gpt2_imdb";
         upload_preset
           ("kaggle://" +:+ kaggle_username ns +:+ "/bert/keras/bert_tiny_imdb")
           "./bert_tiny_imdb" ]
  ∧ authenticated_hubs (log st)
    = List.filter (λ h, creds_incomplete h env) [Kaggle; HuggingFace].
Proof.
  intros Hrun. destruct (run_all_complete _ _ _ _ Hrun) as (gpt2 & train & Hran).
  destruct Hran as [Hc _ _ _ _ _ _ _ _ _ Hd].
  unfold authenticated_hubs, logins, hub_calls. rewrite Hc.
  unfold script_calls, login_if_needed. rewrite Hd. cbn [List.filter].
  by destruct (creds_incomplete Kaggle env), (creds_incomplete HuggingFace env).
Qed.

End Claims.

(** C7 at work: Hugging Face refuses the upload, event 19 of the log. *)
Lemma errors_propagate_unchanged_witness :
  (run_all World1.lib World0.sh ∅ 0).1 = Raise World1.denied
  ∧ S 19 = length (log (run_all World1.lib World0.sh ∅ 0).2).
Proof.
  apply (errors_propagate_unchanged World1.lib World0.sh ∅ 0 19
           (upload_preset "hf://lovelace/gpt2_imdb" "./gpt2_imdb")
           World1.denied).
  vm_compute. reflexivity.
Defined.

(** C3 at work: with no credentials the Kaggle login is made, with all
    four variables set the Hugging Face login is not. *)
Lemma login_iff_credentials_incomplete_witness :
  logins Kaggle (log (run_all World0.lib World0.sh ∅ 0).2)
  = (if creds_incomplete Kaggle ∅ then 1 else 0)
  ∧ logins HuggingFace (log (run_all World0.lib World0.sh World0.env_all 0).2) = 0.
Proof.
  split.
  - apply (proj2 (login_iff_credentials_incomplete
                    World0.lib World0.sh ∅ 0 Kaggle)).
    vm_compute. reflexivity.
  - apply (proj1 (login_iff_credentials_incomplete
                    World0.lib World0.sh World0.env_all 0 HuggingFace)).
    vm_compute. reflexivity.
Defined.

(** ** The theorems at work in the concrete worlds *)

(** C1, as the seven steps would have it, fails: the run in [World0]
    gets through every cell, yet it reloads from the saved directory
    before it uploads, and starts over with the classifier after. *)
Lemma walkthrough_order_counterexample :
  is_ok (World0.run ∅).1 = true
  ∧ stages (log (World0.run ∅).2)
    = [ LoadData; LoadModel; FitModel; SaveLocal; Reload; Reload; Reload;
        Authenticate; Upload; Authenticate; Upload;
        LoadModel; FitModel; SaveLocal; Upload ]
  ∧ in_walkthrough_order (log (World0.run ∅).2) = false.
Proof. vm_compute. repeat split. Qed.

Lemma walkthrough_order_witness :
  (∃ gpt2, calls (log (World0.run ∅).2) = script_calls ∅ gpt2 World0.ns)
  ∧ stages (log (World0.run ∅).2)
    = [LoadData; LoadModel; FitModel; SaveLocal; Reload; Reload; Reload]
      ++ auth_if_needed Kaggle ∅ ++ [Upload]
      ++ auth_if_needed HuggingFace ∅
      ++ [Upload; LoadModel; FitModel; SaveLocal; Upload]
  ∧ in_walkthrough_order (log (World0.run ∅).2) = false.
Proof.
  apply (walkthrough_order World0.lib World0.sh ∅ 0 World0.ns (World0.run ∅).2).
  vm_compute. reflexivity.
Defined.

(** C2, as stated, fails: the first of the two fit calls is handed
    texts without labels. *)
Lemma fits_on_labeled_sample_counterexample :
  is_ok (World0.run ∅).1 = true
  ∧ labeled <$> (fits (log (World0.run ∅).2)).*2 = [false; true]
  ∧ ¬ fits_on_labeled_sample World0.train (log (World0.run ∅).2).
Proof.
  split; [by vm_compute|]. split; [by vm_compute|].
  intros Hall.
  assert (fits (log (World0.run ∅).2) !! 0
          = Some (0, Inputs (tfdata.map fst (tfdata.take 100 World0.train)))) as H0
    by (vm_compute; reflexivity).
  apply (Forall_lookup_1 _ _ _ _ Hall) in H0. discriminate H0.
Qed.

Lemma fit_data_from_truncated_sample_witness :
  ∃ gpt2 train,
    loaded (log (World0.run ∅).2) = [[train; imdb_test World0.ns]]
    ∧ training_calls (log (World0.run ∅).2)
      = [ tfds_load "imdb_reviews" ["train"; "test"] true 4;
          fit gpt2 (Inputs (tfdata.map fst (tfdata.take 100 train)));
          fit (classifier World0.ns) (InputsTargets (tfdata.take 100 train)) ]
    ∧ imdb_train World0.ns = tfdata.take 100 train
    ∧ length (imdb_train World0.ns) = 100 `min` length train.
Proof.
  apply (fit_data_from_truncated_sample World0.lib World0.sh ∅ 0 World0.ns
           (World0.run ∅).2).
  vm_compute. reflexivity.
Defined.

Lemma fit_inputs_texts_vs_pairs_witness :
  ∃ gpt2 train test,
    loaded (log (World0.run ∅).2) = [[train; test]]
    ∧ created (log (World0.run ∅).2) !! 0
      = Some (CausalLM_from_preset "gpt2_base_en", gpt2)
    ∧ created (log (World0.run ∅).2) !! 4
      = Some (Classifier_from_preset "bert_tiny_en_uncased" 2, classifier World0.ns)
    ∧ fits (log (World0.run ∅).2)
      = [ (gpt2, Inputs (fst <$> tfdata.take 100 train));
          (classifier World0.ns, InputsTargets (tfdata.take 100 train)) ].
Proof.
  apply (fit_inputs_texts_vs_pairs World0.lib World0.sh ∅ 0 World0.ns
           (World0.run ∅).2).
  vm_compute. reflexivity.
Defined.

Lemma upload_uri_schemes_witness :
  (λ who, who !! "username") <$> whoamis Kaggle (log (World0.run ∅).2)
    = [Some (kaggle_username World0.ns)]
  ∧ (λ who, who !! "name") <$> whoamis HuggingFace (log (World0.run ∅).2)
    = [Some (hf_username World0.ns)]
  ∧ (uploads (log (World0.run ∅).2)).*1
    = [ scheme Kaggle +:+ kaggle_username World0.ns +:+ "/gpt2/keras/gpt2_imdb";
        scheme HuggingFace +:+ hf_username World0.ns +:+ "/gpt2_imdb";
        scheme Kaggle +:+ kaggle_username World0.ns +:+ "/bert/keras/bert_tiny_imdb" ]
  ∧ Forall2 addressed_to [Kaggle; HuggingFace; Kaggle]
      (uploads (log (World0.run ∅).2)).*1.
Proof.
  apply (upload_uri_schemes World0.lib World0.sh ∅ 0 World0.ns (World0.run ∅).2).
  vm_compute. reflexivity.
Defined.

(** C5 at work on the first upload, event 15 of the log. *)
Lemma upload_destination_and_directory_witness :
  (∃ h who user path,
      who ∈ whoamis h (take 15 (log (run_all World0.lib World0.sh ∅ 0).2))
      ∧ who !! username_key h = Some user
      ∧ "kaggle://ada/gpt2/keras/gpt2_imdb" = scheme h +:+ user +:+ "/" +:+ path)
  ∧ (∃ model x,
      [fit model x; save_to_preset model "./gpt2_imdb"]
        `sublist_of` ok_calls (take 15 (log (run_all World0.lib World0.sh ∅ 0).2))).
Proof.
  apply (upload_destination_and_directory World0.lib World0.sh ∅ 0 15
           (EvCall (upload_preset "kaggle://ada/gpt2/keras/gpt2_imdb" "./gpt2_imdb")
              (Ok tt))).
  - vm_compute. reflexivity.
  - reflexivity.
Defined.

(** C6, as stated, fails: with no credentials in the environment the
    run logs in to both hubs. *)
Lemma authenticates_one_hub_counterexample :
  is_ok (World0.run ∅).1 = true
  ∧ authenticated_hubs (log (World0.run ∅).2) = [Kaggle; HuggingFace]
  ∧ ¬ authenticates_one_hub (log (World0.run ∅).2).
Proof.
  split; [by vm_compute|]. split; [by vm_compute|].
  unfold authenticates_one_hub. vm_compute. discriminate.
Qed.

Lemma both_hubs_in_turn_witness :
  hub_calls (log (World0.run ∅).2)
  = login_if_needed Kaggle ∅
    ++ [kagglehub_whoami; upload_preset (kaggle_uri World0.ns) "./gpt2_imdb"]
    ++ login_if_needed HuggingFace ∅
    ++ [ huggingface_hub_whoami;
         upload_preset (hf_uri World0.ns) "./gpt2_imdb";
         upload_preset
           ("kaggle://" +:+ kaggle_username World0.ns +:+ "/bert/keras/bert_tiny_imdb")
           "./bert_tiny_imdb" ]
  ∧ authenticated_hubs (log (World0.run ∅).2)
    = List.filter (λ h, creds_incomplete h ∅) [Kaggle; HuggingFace].
Proof.
  apply (both_hubs_in_turn World0.lib World0.sh ∅ 0 World0.ns (World0.run ∅).2).
  vm_compute. reflexivity.
Defined.


(** ** Further properties of the script *)

Lemma length_take_map {A B} (f : A → B) n (ds : tfdata.Dataset A) :
  length (tfdata.map f (tfdata.take n ds)) ≤ n.
Proof.
  unfold tfdata.map, tfdata.take. rewrite length_fmap, length_take.
  apply Nat.le_min_l.
Qed.

Lemma length_take_bound {A} n (ds : tfdata.Dataset A) :
  length (tfdata.take n ds) ≤ n.
Proof. unfold tfdata.take. rewrite length_take. apply Nat.le_min_l. Qed.

(** An event of an explicit log is no [from_preset], or one whose
    preset the events before it account for. *)
Ltac preset_ok :=
  let Hc := fresh "Hc" in
  let Hp := fresh "Hp" in
  intros ? ? Hc Hp; cbn in Hc;
  first
    [ discriminate Hc
    | injection Hc as <-; cbn in Hp;
      first
        [ discriminate Hp
        | injection Hp as <-; split;
          [ reflexivity
          | first [ left; solve [repeat constructor]
                  | right; eexists _, _; cbn; find_sublist ] ] ] ].

(** Likewise for [fit]. *)
Ltac fit_ok :=
  let Hc := fresh "Hc" in
  intros ? ? Hc; cbn in Hc;
  first
    [ discriminate Hc
    | injection Hc as <- <-; eexists _, _; split; [reflexivity|];
      split;
      [ first [left; reflexivity | right; reflexivity]
      | cbn; first [apply length_take_map | apply length_take_bound] ] ].

Section More.

Context {Obj W : Type}.
Variable lib : ∀ c : call Obj, W → res (ret Obj c) * W.
Variable sh : string → W → W.

(** *** Where an exception comes from *)

(** X1. An exception that ends a run is the one the last call logged
    raised, or the [KeyError] of a subscript on the dict the [whoami]
    just before returned, or the [ValueError] of unpacking what
    [tfds.load] just before returned. *)
Theorem run_error_source env w e :
  (run_all lib sh env w).1 = Raise e →
  (last (log (run_all lib sh env w).2) ≫= error_of) = Some e
  ∨ raised_after (log (run_all lib sh env w).2) e.
Proof.
  apply (wp_run_all lib sh
           (λ r st, r = Raise e →
                    (last (log st) ≫= error_of) = Some e ∨ raised_after (log st) e)).
  nb_run.
  all: intros [= <-].
  all: first [ by left
             | right; left; exists Kaggle; by split
             | right; left; exists HuggingFace; by split
             | right; right; by split ].
Qed.

(** X2. A [whoami] dict without the user-name entry stops the run: if
    the dict that hub [h] returned lacks ["username"] (Kaggle) or
    ["name"] (Hugging Face), the run ends in the [KeyError] for that
    key, [whoami] is the last call made, and no upload to [h] has been
    made. *)
Theorem whoami_missing_key env w h who :
  who ∈ whoamis h (log (run_all lib sh env w).2) →
  who !! username_key h = None →
  (run_all lib sh env w).1 = Raise (KeyError (username_key h))
  ∧ last (calls (log (run_all lib sh env w).2)) = Some (whoami_call h)
  ∧ Forall (λ ud, String.prefix (scheme h) ud.1 = false)
      (uploads (log (run_all lib sh env w).2)).
Proof.
  apply (wp_run_all lib sh
           (λ r st, who ∈ whoamis h (log st) →
                    who !! username_key h = None →
                    r = Raise (KeyError (username_key h))
                    ∧ last (calls (log st)) = Some (whoami_call h)
                    ∧ Forall (λ ud, String.prefix (scheme h) ud.1 = false)
                        (uploads (log st)))).
  destruct h; nb_run.
  all: cbn; intros Hin Hnone.
  all: first [ by apply elem_of_nil in Hin
             | apply list_elem_of_singleton in Hin; subst who;
               first [ congruence
                     | repeat split; repeat constructor ] ].
Qed.

(** *** The environment *)


(** *** What is loaded and what is fitted *)

Lemma run_all_presets_justified env w :
  each_event preset_justified [] (log (run_all lib sh env w).2).
Proof.
  apply (wp_run_all lib sh (λ r st, each_event preset_justified [] (log st))).
  nb_run.
  all: (cbn [each_event app];
    repeat lazymatch goal with |- _ ∧ _ => split end;
    first [exact I | preset_ok]).
Qed.

(** X4. No run loads a model from a hub or from a directory it has not
    written: whenever event [i] of a run is a [from_preset], its preset
    is no [kaggle://] or [hf://] URI, and it is one of the two library
    presets or a directory that an earlier successful [save_to_preset]
    wrote from a model on which [fit] had returned. *)
Theorem from_preset_sources env w i ev c p :
  log (run_all lib sh env w).2 !! i = Some ev →
  call_of ev = Some c →
  preset_of c = Some p →
  is_hub_uri p = false
  ∧ (p ∈ named_presets
     ∨ ∃ model x,
         [fit model x; save_to_preset model p]
           `sublist_of` ok_calls (take i (log (run_all lib sh env w).2))).
Proof.
  intros Hi Hc Hp.
  exact (each_event_lookup _ [] _ (run_all_presets_justified env w) i ev Hi c p Hc Hp).
Qed.

Lemma run_all_fits_justified env w :
  each_event fit_justified [] (log (run_all lib sh env w).2).
Proof.
  apply (wp_run_all lib sh (λ r st, each_event fit_justified [] (log st))).
  nb_run.
  all: (cbn [each_event app];
    repeat lazymatch goal with |- _ ∧ _ => split end;
    first [exact I | fit_ok]).
Qed.

(** X5. No run, however far it gets, fits a model on the test split or
    on more than 100 batches: whenever event [i] of a run is a [fit],
    its data is the first 100 batches of the training split that
    [tfds.load] returned earlier in the run, with the labels or with
    the labels dropped. *)
Theorem fit_data_bounded env w i ev model x :
  log (run_all lib sh env w).2 !! i = Some ev →
  call_of ev = Some (fit model x) →
  ∃ train test,
    loaded (take i (log (run_all lib sh env w).2)) = [[train; test]]
    ∧ (x = Inputs (tfdata.map fst (tfdata.take 100 train))
       ∨ x = InputsTargets (tfdata.take 100 train))
    ∧ fit_batches x ≤ 100.
Proof.
  intros Hi Hc.
  exact (each_event_lookup _ [] _ (run_all_fits_justified env w) i ev Hi model x Hc).
Qed.

(** *** Runs that stop early *)

(** X6. A run that stops early has gone through the same steps as one
    that gets through every cell, up to where it stopped. *)
Theorem stages_prefix env w :
  stages (log (run_all lib sh env w).2) `prefix_of` run_stages env.
Proof.
  apply (wp_run_all lib sh (λ r st, stages (log st) `prefix_of` run_stages env)).
  nb_run.
  all: unfold stages, run_stages, auth_if_needed; cbn; nb_known.
  all: destruct (creds_incomplete Kaggle env), (creds_incomplete HuggingFace env).
  all: eexists; reflexivity.
Qed.

End More.

(** X1 at work: the refusal of [World1] is what the run ends in. *)
Lemma run_error_source_witness :
  (last (log (run_all World1.lib World0.sh ∅ 0).2) ≫= error_of)
  = Some World1.denied
  ∨ raised_after (log (run_all World1.lib World0.sh ∅ 0).2) World1.denied.
Proof.
  apply (run_error_source World1.lib World0.sh ∅ 0 World1.denied).
  vm_compute. reflexivity.
Defined.

(** X2 at work: in [World2] the run dies on [whoami()["username"]]. *)
Lemma whoami_missing_key_witness :
  (run_all World2.lib World0.sh ∅ 0).1 = Raise (KeyError (username_key Kaggle))
  ∧ last (calls (log (run_all World2.lib World0.sh ∅ 0).2))
    = Some (whoami_call Kaggle)
  ∧ Forall (λ ud, String.prefix (scheme Kaggle) ud.1 = false)
      (uploads (log (run_all World2.lib World0.sh ∅ 0).2)).
Proof.
  apply (whoami_missing_key World2.lib World0.sh ∅ 0 Kaggle World2.who).
  - vm_compute. constructor.
  - vm_compute. reflexivity.
Defined.

(** X4 at work on the reload of the task, event 9 of the log. *)
Lemma from_preset_sources_witness :
  is_hub_uri "./gpt2_imdb" = false
  ∧ ("./gpt2_imdb" ∈ named_presets
     ∨ ∃ model x,
         [fit model x; save_to_preset model "./gpt2_imdb"]
           `sublist_of` ok_calls (take 9 (log (run_all World0.lib World0.sh ∅ 0).2))).
Proof.
  apply (from_preset_sources World0.lib World0.sh ∅ 0 9
           (EvCall (CausalLM_from_preset "./gpt2_imdb") (Ok 2))
           (CausalLM_from_preset "./gpt2_imdb")).
  - vm_compute. reflexivity.
  - reflexivity.
  - reflexivity.
Defined.

(** X5 at work on the first fit, event 6 of the log. *)
Lemma fit_data_bounded_witness :
  ∃ train test,
    loaded (take 6 (log (run_all World0.lib World0.sh ∅ 0).2)) = [[train; test]]
    ∧ (Inputs (tfdata.map fst (tfdata.take 100 World0.train))
       = Inputs (tfdata.map fst (tfdata.take 100 train))
       ∨ Inputs (tfdata.map fst (tfdata.take 100 World0.train))
         = InputsTargets (tfdata.take 100 train))
    ∧ fit_batches (Inputs (tfdata.map fst (tfdata.take 100 World0.train))) ≤ 100.
Proof.
  apply (fit_data_bounded World0.lib World0.sh ∅ 0 6
           (EvCall (fit 0 (Inputs (tfdata.map fst (tfdata.take 100 World0.train))))
              (Ok 1))
           0).
  - vm_compute. reflexivity.
  - reflexivity.
Defined.
